(** * kuma.attachments.views: serving, legacy redirects and upload of attachments

    A shallow embedding of [kuma/attachments/views.py].  The three views
    ([raw_file], [mindtouch_file_redirect], [edit_attachment]) are written in
    a state-and-exception monad over the relational store they query and
    update; the framework objects they build (HTTP responses, file handles,
    forms) are modelled next to them. *)

From Equations Require Import Equations.
From stdpp Require Import gmap strings list fin_maps pretty.

(** ** Exceptions and outcomes *)

(** The Python exceptions that flow through the views.  [Http404] and
    [PermissionDenied] are raised by the views themselves; [OSError] is the
    one the size query is guarded against; [NotImplementedError] is what
    Django's base [Storage.size] raises for a backend that cannot report a
    size; [ValueError] is what a [FieldFile] without a file raises;
    [DoesNotExist] and [MultipleObjectsReturned] come from
    [QuerySet.get]. *)
Inductive Exception : Set :=
| Http404
| PermissionDenied
| OSError
| NotImplementedError
| ValueError
| DoesNotExist
| MultipleObjectsReturned.

#[global] Instance Exception_eq_dec : EqDecision Exception.
Proof. solve_decision. Defined.

Inductive Outcome (A : Type) : Type :=
| Return (a : A)
| Raise (e : Exception).
Arguments Return {A} a.
Arguments Raise {A} e.

#[global] Instance Outcome_ret : MRet Outcome := λ A a, Return a.
#[global] Instance Outcome_bind : MBind Outcome := λ A B k m,
  match m with
  | Return a => k a
  | Raise e => Raise e
  end.

(** [try: body except exc: handler], with Python's typed [except]: only
    the named exception is handled, any other one keeps propagating. *)
Definition try_except {A} (body : Outcome A) (exc : Exception)
    (handler : Outcome A) : Outcome A :=
  match body with
  | Return a => Return a
  | Raise e => if decide (e = exc) then handler else Raise e
  end.

(** ** Stored files (django.core.files) *)

Module File.

(** The file of a revision as the view holds it: what the storage answers
    when the file is opened (the stored bytes, or the exception of the
    open), the offset of the handle, and what the storage answers when
    asked for the size. *)
Record t : Type := Build {
  name : string;
  content : Outcome (list Byte.byte);
  position : nat;
  size : Outcome Z;
}.

Definition DEFAULT_CHUNK_SIZE : N := 64 * 2 ^ 10.

Definition seek (offset : nat) (f : t) : t :=
  Build (name f) (content f) offset (size f).

(** [f.read(n)]: opens the file if need be, which can raise; then at most
    [n] bytes from the current offset, which moves past them. *)
Definition read (n : N) (f : t) : Outcome (list Byte.byte * t) :=
  bytes ← content f;
  let data := take (N.to_nat n) (drop (position f) bytes) in
  mret (data, seek (position f + length data) f).

Definition remaining (f : t) : nat :=
  match content f with
  | Return bytes => length bytes - position f
  | Raise _ => 0
  end.

Definition inspect {A} (a : A) : {b : A | a = b} := exist _ a eq_refl.

(** The loop of [File.chunks]: read until a read comes back empty; an
    exception of a read ends the iteration. *)
Equations? read_chunks (n : N) (f : t) : Outcome (list (list Byte.byte))
  by wf (remaining f) lt :=
  read_chunks n f with inspect (read n f) := {
    | exist _ (Raise e) _ := Raise e;
    | exist _ (Return ([], _)) _ := Return [];
    | exist _ (Return (b :: data, f')) Hread :=
        match read_chunks n f' with
        | Return rest => Return ((b :: data) :: rest)
        | Raise e => Raise e
        end }.
Proof.
  unfold read in Hread. unfold remaining.
  destruct (content f) as [bytes|e] eqn:Hcontent; simpl in Hread; [|done].
  injection Hread as Hdata Hf'. subst f'. simpl. rewrite Hcontent.
  assert (Hlen : length (b :: data) ≤ length (drop (position f) bytes)).
  { rewrite <- Hdata, length_take. lia. }
  rewrite length_drop in Hlen. rewrite Hdata. simpl in *. lia.
Qed.

(** [File.chunks()]: rewind, then yield chunks of [DEFAULT_CHUNK_SIZE]. *)
Definition chunks (f : t) : Outcome (list (list Byte.byte)) :=
  read_chunks DEFAULT_CHUNK_SIZE (seek 0 f).

End File.

(** ** The models (kuma.attachments.models, kuma.wiki.models) *)

(** [request.user] inside the views: the identity that [login_required]
    has let through. *)
Record User : Type := {
  user_id : Z;
  username : string;
}.

Module Attachment.
(** A row of the attachment table; the primary key is the key of the
    table.  Both foreign keys are nullable. *)
Record t : Type := Build {
  title : string;
  mindtouch_attachment_id : option Z;
  current_revision : option Z;
}.
End Attachment.

Module AttachmentRevision.
Record t : Type := Build {
  attachment : option Z;
  file : File.t;
  mime_type : string;
  title : string;
  created : Z;
  creator : option User;
}.
End AttachmentRevision.

Module Document.
Record t : Type := Build {
  locale : string;
  slug : string;
}.
End Document.

(** The row of the many-to-many relation between documents and their
    files. *)
Module DocumentAttachment.
Record t : Type := Build {
  file : Z;
  document : Z;
  attached_by : User;
  revision : Z;
}.
End DocumentAttachment.

(** The writes a view issues to the persistence layer, in order. *)
Inductive Write : Type :=
| InsertAttachment (pk : Z) (row : Attachment.t)
| InsertRevision (pk : Z) (row : AttachmentRevision.t)
| InsertDocumentAttachment (row : DocumentAttachment.t).

Record Database : Type := {
  attachments : gmap Z Attachment.t;
  revisions : gmap Z AttachmentRevision.t;
  documents : gmap Z Document.t;
  document_attachments : list DocumentAttachment.t;
  journal : list Write;
}.

(** ** Views as computations over the database *)

Definition Eff (A : Type) : Type := Database → Outcome A * Database.

#[global] Instance Eff_ret : MRet Eff := λ A a db, (Return a, db).
#[global] Instance Eff_bind : MBind Eff := λ A B k m db,
  match m db with
  | (Return a, db') => k a db'
  | (Raise e, db') => (Raise e, db')
  end.

Definition lift {A} (o : Outcome A) : Eff A := λ db, (o, db).
Definition raise {A} (e : Exception) : Eff A := lift (Raise e).
Definition query {A} (q : Database → A) : Eff A := λ db, (Return (q db), db).

(** ** The object-relational layer *)

(** [QuerySet.get] with a keyword lookup over a table: the one row that
    satisfies the lookup, [DoesNotExist] when there is none,
    [MultipleObjectsReturned] when there are several. *)
Definition get {A} (table : gmap Z A) (lookup : Z * A → Prop)
    `{!∀ obj, Decision (lookup obj)} : Outcome (Z * A) :=
  match map_to_list (filter lookup table) with
  | [] => Raise DoesNotExist
  | [obj] => Return obj
  | _ :: _ :: _ => Raise MultipleObjectsReturned
  end.

(** [django.shortcuts.get_object_or_404]: [DoesNotExist] becomes
    [Http404], nothing else is caught. *)
Definition get_object_or_404 {A} (table : gmap Z A) (lookup : Z * A → Prop)
    `{!∀ obj, Decision (lookup obj)} : Outcome (Z * A) :=
  try_except (get table lookup) DoesNotExist (Raise Http404).

(** [Attachment.objects.select_related('current_revision')]: every
    attachment joined with the revision its foreign key points to; the
    key is nullable, so the join is a left outer join: a null key, or a
    key without a row, gives [None]. *)
Definition select_related_current_revision (db : Database)
    : gmap Z (Attachment.t * option (Z * AttachmentRevision.t)) :=
  (λ a, (a, pk ← Attachment.current_revision a;
            rev ← revisions db !! pk;
            Some (pk, rev))) <$> attachments db.

(** [Attachment.objects.create(title=...)]: a new row under a new
    primary key, the other columns at their null default. *)
Definition Attachment_objects_create (title : string)
    : Eff (Z * Attachment.t) := λ db,
  let pk := fresh (dom (attachments db)) in
  let row := Attachment.Build title None None in
  (Return (pk, row),
   {| attachments := <[pk := row]> (attachments db);
      revisions := revisions db;
      documents := documents db;
      document_attachments := document_attachments db;
      journal := journal db ++ [InsertAttachment pk row] |}).

(** Modelled from the spec: [AttachmentRevision.save] of models.py, which
    is not part of the sources at hand; the spec has it "persist the
    revision".  The instance comes from [form.save(commit=False)] and has
    no primary key yet, so saving inserts a row under a new key. *)
Definition save (revision : AttachmentRevision.t)
    : Eff (Z * AttachmentRevision.t) := λ db,
  let pk := fresh (dom (revisions db)) in
  (Return (pk, revision),
   {| attachments := attachments db;
      revisions := <[pk := revision]> (revisions db);
      documents := documents db;
      document_attachments := document_attachments db;
      journal := journal db ++ [InsertRevision pk revision] |}).

(** Modelled from the spec: [Attachment.attach] of models.py, which is
    not part of the sources at hand; the spec has it "associate the
    attachment with the document (recording who performed the attach and
    which revision)". *)
Definition attach (attachment : Z * Attachment.t) (document : Z * Document.t)
    (user : User) (revision : Z * AttachmentRevision.t) : Eff unit := λ db,
  let row := DocumentAttachment.Build attachment.1 document.1 user revision.1 in
  (Return (),
   {| attachments := attachments db;
      revisions := revisions db;
      documents := documents db;
      document_attachments := document_attachments db ++ [row];
      journal := journal db ++ [InsertDocumentAttachment row] |}).

(** ** Requests, forms and responses *)

Record HttpRequest : Type := {
  method : string;
  user : User;
  host : string;
  POST : gmap string string;
  FILES : gmap string File.t;
}.

(** [AttachmentRevisionForm(data=..., files=...)]: a bound form. *)
Record AttachmentRevisionForm : Type := {
  data : gmap string string;
  files : gmap string File.t;
}.

Inductive ContextValue : Type :=
| CtxForm (form : AttachmentRevisionForm)
| CtxDocument (document : Z * Document.t).

Inductive Body : Type :=
| NoBody
| Streaming (streaming_content : File.t)
| Rendered (template_name : string) (context : gmap string ContextValue).

Record HttpResponse : Type := {
  status_code : Z;
  headers : gmap string string;
  body : Body;
}.

(** [response[header] = value] *)
Definition set_header (header value : string) (response : HttpResponse)
    : HttpResponse :=
  {| status_code := status_code response;
     headers := <[header := value]> (headers response);
     body := body response |}.

(** [StreamingHttpResponse(streaming_content, content_type=...)] *)
Definition StreamingHttpResponse (streaming_content : File.t)
    (content_type : string) : HttpResponse :=
  {| status_code := 200;
     headers := {["Content-Type" := content_type]};
     body := Streaming streaming_content |}.

(** [django.shortcuts.redirect(to, permanent=...)] on a URL. *)
Definition redirect (to : string) (permanent : bool) : HttpResponse :=
  {| status_code := if permanent then 301 else 302;
     headers := {["Location" := to]};
     body := NoBody |}.

(** [django.shortcuts.render(request, template_name, context)] *)
Definition render (request : HttpRequest) (template_name : string)
    (context : gmap string ContextValue) : HttpResponse :=
  {| status_code := 200;
     headers := ∅;
     body := Rendered template_name context |}.

(** What the transport gets when it consumes the response, after the view
    has returned: a streaming response iterates its file, which goes
    through [File.chunks] and only then opens the file, so that the
    iteration itself can raise. *)
Definition streamed_bytes (response : HttpResponse)
    : option (Outcome (list Byte.byte)) :=
  match body response with
  | Streaming f => Some (chunks ← File.chunks f; mret (concat chunks))
  | _ => None
  end.

(** The [cache_control(public=..., max_age=...)] decorator: the wrapped
    view's response gets its [Cache-Control] header patched; an exception
    of the wrapped view passes through. *)
Definition patch_cache_control (public : bool) (max_age : Z)
    (response : HttpResponse) : HttpResponse :=
  set_header "Cache-Control"
    ((if public then "public, " else "") +:+ "max-age=" +:+ pretty max_age)
    response.

Definition cache_control (public : bool) (max_age : Z)
    (viewfunc : HttpRequest → Outcome HttpResponse)
    : HttpRequest → Outcome HttpResponse := λ request,
  response ← viewfunc request;
  mret (patch_cache_control public max_age response).

(** How Django's handler surfaces the outcome of a view. *)
Definition surfaced_status (o : Outcome HttpResponse) : Z :=
  match o with
  | Return response => status_code response
  | Raise Http404 => 404
  | Raise PermissionDenied => 403
  | Raise _ => 500
  end.

(** ** Collaborators and settings *)

(** The functions the views import from modules that are not part of the
    sources at hand; the views are parametric in them. *)
Record Collaborators : Type := {
  (* kuma.core.utils *)
  is_untrusted : HttpRequest → bool;
  (* kuma.attachments.utils *)
  convert_to_http_date : Z → string;
  allow_add_attachment_by : User → bool;
  (* kuma.attachments.models: Attachment.get_file_url, a read-only method *)
  get_file_url : Database → Z * Attachment.t → string;
  (* kuma.wiki.models: Document.get_edit_url *)
  get_edit_url : Z * Document.t → string;
  (* kuma.attachments.forms: form.errors and form.save(commit=False) *)
  errors : AttachmentRevisionForm → list (string * string);
  form_save : AttachmentRevisionForm → AttachmentRevision.t;
}.

Record Settings : Type := {
  DEBUG : bool;
  DOMAIN : string;
}.


(** [Form.is_valid]: bound and without errors; the form of the view is
    always bound. *)
Definition is_valid (K : Collaborators) (form : AttachmentRevisionForm)
    : bool :=
  bool_decide (errors K form = []).

(** ** The views *)

(** Mime types used on MDN *)
Definition OVERRIDE_MIMETYPES : gmap string string :=
  {[ "image/jpeg" := ".jpeg, .jpg, .jpe";
     "image/vnd.adobe.photoshop" := ".psd" ]}.

Definition IMAGE_MIMETYPES : list string :=
  ["image/png"; "image/jpeg"; "image/jpg"; "image/gif"].

(** [OVERRIDE_MIMETYPES.get(_type, mimetypes.guess_extension(_type))],
    parametric in the standard library's table. *)
Definition guess_extension
    (mimetypes_guess_extension : string → option string) (_type : string)
    : option string :=
  match OVERRIDE_MIMETYPES !! _type with
  | Some extension => Some extension
  | None => mimetypes_guess_extension _type
  end.

Section views.

Context (K : Collaborators) (settings : Settings).

(** The inner view of [raw_file], closed over the current revision [rev]
    and wrapped in [cache_control(public=True, max_age=60 * 15)].  The
    read-ahead of [DEBUG] mode comes before the [try] and is not guarded:
    what it raises leaves the view. *)
Definition stream_raw_file (rev : Z * AttachmentRevision.t)
    : HttpRequest → Outcome HttpResponse :=
  cache_control true (60 * 15) (λ _,
    file ←
      (if DEBUG settings
       then
         read_ahead ← File.read File.DEFAULT_CHUNK_SIZE
                        (AttachmentRevision.file rev.2);
         mret read_ahead.2
       else mret (AttachmentRevision.file rev.2));
    let response :=
      StreamingHttpResponse file (AttachmentRevision.mime_type rev.2) in
    response ← try_except
      (size ← File.size file;
       mret (set_header "Content-Length" (pretty size) response))
      OSError
      (mret response);
    let response :=
      set_header "Last-Modified"
        (convert_to_http_date K (AttachmentRevision.created rev.2))
        response in
    let response :=
      set_header "X-Frame-Options" ("ALLOW-FROM " +:+ DOMAIN settings)
        response in
    mret response).

(** Serve up an attachment's file. *)
Definition raw_file (request : HttpRequest) (attachment_id : Z)
    (filename : string) : Eff HttpResponse :=
  qs ← query select_related_current_revision;
  attachment ← lift (get_object_or_404 qs (λ obj, obj.1 = attachment_id));
  match attachment.2.2 with
  | None => raise Http404
  | Some rev =>
      if is_untrusted K request then
        lift (stream_raw_file rev request)
      else
        url ← query (λ db, get_file_url K db (attachment.1, attachment.2.1));
        mret (redirect url true)
  end.

(** Redirect an old MindTouch file URL to a new kuma file URL. *)
Definition mindtouch_file_redirect (request : HttpRequest) (file_id : Z)
    (filename : string) : Eff HttpResponse :=
  table ← query attachments;
  attachment ← lift (get_object_or_404 table (λ obj,
    Attachment.mindtouch_attachment_id obj.2 = Some file_id));
  url ← query (λ db, get_file_url K db attachment);
  mret (redirect url true).

(** Create a new attachment and its initial revision, or show the form
    again with its errors.  This is the body of the view: its decorators
    ([xframe_options_sameorigin], [login_required],
    [process_document_path]) wrap it from outside and hand it the request
    of an authenticated user with the slug and locale of the path. *)
Definition edit_attachment (request : HttpRequest)
    (document_slug document_locale : string) : Eff HttpResponse :=
  table ← query documents;
  document ← lift (get_object_or_404 table (λ obj,
    Document.locale obj.2 = document_locale ∧
    Document.slug obj.2 = document_slug));
  if decide (method request ≠ "POST") then
    mret (redirect (get_edit_url K document) false)
  else if negb (allow_add_attachment_by K (user request)) then
    raise PermissionDenied
  else
    let form :=
      {| data := POST request; files := FILES request |} in
    if is_valid K form then
      let revision := form_save K form in
      let revision :=
        AttachmentRevision.Build
          (AttachmentRevision.attachment revision)
          (AttachmentRevision.file revision)
          (AttachmentRevision.mime_type revision)
          (AttachmentRevision.title revision)
          (AttachmentRevision.created revision)
          (Some (user request)) in
      attachment ←
        Attachment_objects_create (AttachmentRevision.title revision);
      let revision :=
        AttachmentRevision.Build
          (Some attachment.1)
          (AttachmentRevision.file revision)
          (AttachmentRevision.mime_type revision)
          (AttachmentRevision.title revision)
          (AttachmentRevision.created revision)
          (AttachmentRevision.creator revision) in
      revision ← save revision;
      _ ← attach attachment document (user request) revision;
      mret (redirect (get_edit_url K document) false)
    else
      let context : gmap string ContextValue :=
        {[ "form" := CtxForm form; "document" := CtxDocument document ]} in
      mret (render request "attachments/edit_attachment.html" context).

End views.

(** ** Sample collaborators, requests and database *)

Module Demo.

#[local] Open Scope Z_scope.

Definition K : Collaborators := {|
  is_untrusted := λ request,
    bool_decide (host request = "mdn.mozillademos.org");
  convert_to_http_date := λ t, "epoch+" +:+ pretty t;
  allow_add_attachment_by := λ u, bool_decide (username u ≠ "banned");
  get_file_url := λ _ attachment, "/files/" +:+ pretty attachment.1 +:+ "/";
  get_edit_url := λ document,
    "/" +:+ Document.locale document.2 +:+ "/docs/" +:+
    Document.slug document.2 +:+ "$edit";
  errors := λ form,
    (if data form !! "title" is Some _ then []
     else [("title", "This field is required.")]) ++
    (if files form !! "file" is Some _ then []
     else [("file", "This field is required.")]);
  form_save := λ form,
    AttachmentRevision.Build None
      (default (File.Build "" (Return []) 0%nat (Return 0)) (files form !! "file"))
      "image/png"
      (default "" (data form !! "title"))
      1478217600
      None;
|}.

Definition settings : Settings :=
  {| DEBUG := true; DOMAIN := "developer.mozilla.org" |}.

Definition production : Settings :=
  {| DEBUG := false; DOMAIN := "developer.mozilla.org" |}.

Definition png : list Byte.byte := [Byte.x89; Byte.x50; Byte.x4e; Byte.x47].

Definition logo : File.t :=
  File.Build "logo.png" (Return png) 0%nat (Return 4).
(** A file on a storage that cannot report sizes. *)
Definition unsized : File.t :=
  File.Build "remote.png" (Return png) 0%nat (Raise NotImplementedError).
(** A file that is no longer on the storage: neither its size nor its
    bytes can be had. *)
Definition vanished : File.t :=
  File.Build "gone.png" (Raise OSError) 0%nat (Raise OSError).

Definition revision_of (attachment : Z) (f : File.t) : AttachmentRevision.t :=
  AttachmentRevision.Build (Some attachment) f "image/png" "Logo"
    1478217600 None.

Definition db : Database := {|
  attachments :=
    {[ 1 := Attachment.Build "Logo" (Some 7) (Some 10);
       2 := Attachment.Build "Draft" (Some 8) None;
       3 := Attachment.Build "Remote" None (Some 11);
       4 := Attachment.Build "Gone" None (Some 12) ]};
  revisions :=
    {[ 10 := revision_of 1 logo;
       11 := revision_of 3 unsized;
       12 := revision_of 4 vanished ]};
  documents := {[ 1 := Document.Build "en-US" "Web/CSS" ]};
  document_attachments := [];
  journal := [];
|}.

Definition editor : User := {| user_id := 1; username := "editor" |}.
Definition banned : User := {| user_id := 2; username := "banned" |}.

Definition untrusted_get : HttpRequest :=
  {| method := "GET"; user := editor; host := "mdn.mozillademos.org";
     POST := ∅; FILES := ∅ |}.
Definition trusted_get : HttpRequest :=
  {| method := "GET"; user := editor; host := "developer.mozilla.org";
     POST := ∅; FILES := ∅ |}.
Definition upload (who : User) : HttpRequest :=
  {| method := "POST"; user := who; host := "developer.mozilla.org";
     POST := {[ "title" := "Logo" ]}; FILES := {[ "file" := logo ]} |}.
Definition upload_without_title : HttpRequest :=
  {| method := "POST"; user := editor; host := "developer.mozilla.org";
     POST := ∅; FILES := {[ "file" := logo ]} |}.



Definition form_without_title : AttachmentRevisionForm :=
  {| data := ∅; files := {[ "file" := logo ]} |}.

Definition form_context : gmap string ContextValue :=
  {[ "form" := CtxForm form_without_title;
     "document" := CtxDocument (1, Document.Build "en-US" "Web/CSS") ]}.

End Demo.

(** ** What a client sees, and what the tables must keep *)


(** The read-ahead of [DEBUG] mode goes well when the mode is off or the
    file can be opened. *)
Definition read_ahead_succeeds (settings : Settings) (f : File.t) : Prop :=
  DEBUG settings = false ∨ ∃ bytes, File.content f = Return bytes.

(** Referential integrity of the tables: every foreign key that is set
    points to a row. *)
Record consistent (db : Database) : Prop := {
  current_revision_exists : ∀ pk att rpk,
    attachments db !! pk = Some att →
    Attachment.current_revision att = Some rpk →
    is_Some (revisions db !! rpk);
  revision_attachment_exists : ∀ rpk rev pk,
    revisions db !! rpk = Some rev →
    AttachmentRevision.attachment rev = Some pk →
    is_Some (attachments db !! pk);
  link_targets_exist : ∀ link,
    link ∈ document_attachments db →
    is_Some (attachments db !! DocumentAttachment.file link) ∧
    is_Some (documents db !! DocumentAttachment.document link) ∧
    is_Some (revisions db !! DocumentAttachment.revision link);
}.

(** A database in which two attachments carry the same legacy
    identifier. *)
Module Legacy.

#[local] Open Scope Z_scope.

Definition db : Database := {|
  attachments :=
    {[ 1 := Attachment.Build "Logo" (Some 7) (Some 10);
       2 := Attachment.Build "Logo (copy)" (Some 7) (Some 10) ]};
  revisions := {[ 10 := Demo.revision_of 1 Demo.logo ]};
  documents := ∅;
  document_attachments := [];
  journal := [];
|}.

End Legacy.

(** * Properties *)

(** ** Streaming a file yields its stored bytes *)

Lemma take_then_rest {A} (k : nat) (l : list A) :
  take k l ++ drop (length (take k l)) l = l.
Proof.
  destruct (decide (k ≤ length l)) as [Hle|Hgt].
  - rewrite length_take, Nat.min_l by done. apply take_drop.
  - rewrite take_ge by lia. by rewrite drop_all, app_nil_r.
Qed.

(** Reading a file that can be opened, chunk by chunk from its offset,
    gives the bytes from that offset on. *)
Lemma read_chunks_concat (n : N) (f : File.t) (bytes : list Byte.byte) :
  n ≠ 0%N →
  File.content f = Return bytes →
  ∃ chunks,
    File.read_chunks n f = Return chunks ∧
    concat chunks = drop (File.position f) bytes.
Proof.
  intros Hn. funelim (File.read_chunks n f); clear Heqcall; intros Hcontent;
    repeat match goal with H : sigmaI _ _ _ = _ |- _ => clear H end;
    match goal with
    | Hread : File.read _ _ = _ |- _ =>
        unfold File.read in Hread; rewrite Hcontent in Hread;
        simpl in Hread; try discriminate Hread; injection Hread as Hdata Hf'
    end.
  - exists []. split; [done|]. simpl.
    destruct (drop (File.position f) bytes) as [|b l]; [done|].
    destruct (N.to_nat n) eqn:Hk; [lia | discriminate].
  - match goal with
    | IH : ∀ _, _ → _ → ∃ _, _ |- _ =>
        destruct (IH bytes Hn) as (rest & -> & Hrest); [by subst f'|]
    end.
    eexists. split; [reflexivity|].
    rewrite concat_cons, Hrest, <- Hdata. subst f'. simpl.
    rewrite <- drop_drop. apply take_then_rest.
Qed.

Lemma read_chunks_unreadable (n : N) (f : File.t) (e : Exception) :
  File.content f = Raise e → File.read_chunks n f = Raise e.
Proof.
  intros Hcontent. funelim (File.read_chunks n f); clear Heqcall;
    repeat match goal with H : sigmaI _ _ _ = _ |- _ => clear H end;
    match goal with
    | Hread : File.read _ _ = _ |- _ =>
        unfold File.read in Hread; rewrite Hcontent in Hread;
        simpl in Hread; by simplify_eq
    end.
Qed.

Lemma chunks_concat (f : File.t) (bytes : list Byte.byte) :
  File.content f = Return bytes →
  (chunks ← File.chunks f; mret (concat chunks)) = Return bytes.
Proof.
  intros Hcontent. unfold File.chunks.
  destruct (read_chunks_concat File.DEFAULT_CHUNK_SIZE (File.seek 0 f) bytes)
    as (chunks & -> & Hconcat); [done..|].
  simpl. by rewrite Hconcat.
Qed.

Lemma chunks_unreadable (f : File.t) (e : Exception) :
  File.content f = Raise e →
  (chunks ← File.chunks f; mret (concat chunks)) = Raise e.
Proof.
  intros Hcontent. unfold File.chunks.
  by rewrite (read_chunks_unreadable _ _ e).
Qed.

(** ** Lookups *)

Section get_facts.

Context {A : Type} (table : gmap Z A) (lookup : Z * A → Prop)
  `{!∀ obj, Decision (lookup obj)}.

Lemma get_none :
  (∀ pk row, table !! pk = Some row → ¬ lookup (pk, row)) →
  get table lookup = Raise DoesNotExist.
Proof.
  intros Hnone. unfold get.
  assert (Hempty : filter lookup table = ∅).
  { apply map_empty. intros pk. apply map_lookup_filter_None.
    destruct (table !! pk) as [row|] eqn:Hrow; [right|by left].
    intros x [= <-]. by apply Hnone. }
  by rewrite Hempty, map_to_list_empty.
Qed.

Lemma get_only pk row :
  table !! pk = Some row →
  lookup (pk, row) →
  (∀ pk' row', table !! pk' = Some row' → lookup (pk', row') → pk' = pk) →
  get table lookup = Return (pk, row).
Proof.
  intros Hrow Hlookup Honly. unfold get.
  assert (Hone : filter lookup table = {[pk := row]}).
  { apply map_eq. intros pk'. destruct (decide (pk' = pk)) as [->|Hne].
    - rewrite lookup_singleton_eq. by apply map_lookup_filter_Some.
    - rewrite lookup_singleton_ne by done. apply map_lookup_filter_None.
      destruct (table !! pk') as [row'|] eqn:Hrow'; [right|by left].
      intros x [= <-] Hx. by apply Hne, (Honly pk' row'). }
  by rewrite Hone, map_to_list_singleton.
Qed.

Lemma get_Return obj :
  get table lookup = Return obj → table !! obj.1 = Some obj.2 ∧ lookup obj.
Proof.
  unfold get. intros Hget.
  destruct (map_to_list (filter lookup table)) as [|obj' [|? ?]] eqn:Hl;
    simplify_eq.
  assert (Hin : obj ∈ map_to_list (filter lookup table))
    by (rewrite Hl; apply list_elem_of_here).
  destruct obj as [pk row]. apply elem_of_map_to_list in Hin.
  by apply map_lookup_filter_Some in Hin.
Qed.

Lemma get_DoesNotExist :
  get table lookup = Raise DoesNotExist ↔
  ∀ pk row, table !! pk = Some row → ¬ lookup (pk, row).
Proof.
  split; [|apply get_none].
  unfold get. intros Hget pk row Hrow Hlookup.
  destruct (map_to_list (filter lookup table)) as [|? [|? ?]] eqn:Hl;
    simplify_eq.
  apply map_to_list_empty_iff in Hl.
  by apply (map_filter_empty_not_lookup _ _ pk row Hl).
Qed.

Lemma get_raises e :
  get table lookup = Raise e → e = DoesNotExist ∨ e = MultipleObjectsReturned.
Proof.
  unfold get.
  destruct (map_to_list (filter lookup table)) as [|? [|? ?]];
    intros; simplify_eq; auto.
Qed.

Lemma get_object_or_404_only pk row :
  table !! pk = Some row →
  lookup (pk, row) →
  (∀ pk' row', table !! pk' = Some row' → lookup (pk', row') → pk' = pk) →
  get_object_or_404 table lookup = Return (pk, row).
Proof.
  intros. unfold get_object_or_404. by erewrite get_only.
Qed.

Lemma get_object_or_404_Http404 :
  get_object_or_404 table lookup = Raise Http404 ↔
  ∀ pk row, table !! pk = Some row → ¬ lookup (pk, row).
Proof.
  rewrite <- get_DoesNotExist. unfold get_object_or_404, try_except.
  destruct (get table lookup) as [obj|e] eqn:Hget; [done|].
  destruct (get_raises _ Hget) as [->| ->]; simpl; done.
Qed.

Lemma get_object_or_404_Return obj :
  get_object_or_404 table lookup = Return obj →
  table !! obj.1 = Some obj.2 ∧ lookup obj.
Proof.
  unfold get_object_or_404, try_except.
  destruct (get table lookup) as [obj'|e] eqn:Hget.
  - intros [= ->]. by apply get_Return.
  - case_decide; done.
Qed.

End get_facts.

(** A lookup by primary key finds the row stored under that key. *)
Lemma get_object_or_404_pk {A} (table : gmap Z A) (pk : Z) :
  get_object_or_404 table (λ obj, obj.1 = pk) =
  match table !! pk with
  | Some row => Return (pk, row)
  | None => Raise Http404
  end.
Proof.
  destruct (table !! pk) as [row|] eqn:Hrow.
  - apply get_object_or_404_only; [done..|]. by intros.
  - apply get_object_or_404_Http404. intros pk' row' Hrow' Heq.
    simpl in Heq. congruence.
Qed.

(** ** raw_file *)

Section raw_file_facts.

Context (K : Collaborators) (settings : Settings).

(** Streaming a file gives what opening it gives: its bytes, or the
    exception of the open. *)
Lemma streamed_file (f : File.t) :
  (chunks ← File.chunks f; mret (concat chunks)) = File.content f.
Proof.
  destruct (File.content f) as [bytes|e] eqn:Hcontent.
  - by apply chunks_concat.
  - by apply chunks_unreadable.
Qed.

(** The join of [select_related] seen from one attachment. *)
Lemma select_related_lookup (db : Database) (pk : Z) :
  select_related_current_revision db !! pk =
  (λ a, (a, rpk ← Attachment.current_revision a;
            rev ← revisions db !! rpk;
            Some (rpk, rev))) <$> attachments db !! pk.
Proof. unfold select_related_current_revision. apply lookup_fmap. Qed.

Lemma raw_file_missing request attachment_id filename db :
  attachments db !! attachment_id = None →
  raw_file K settings request attachment_id filename db = (Raise Http404, db).
Proof.
  intros Hnone. unfold raw_file, mbind, Eff_bind, query, lift.
  rewrite get_object_or_404_pk, select_related_lookup, Hnone. done.
Qed.

Lemma raw_file_no_current_revision request attachment_id filename db att :
  attachments db !! attachment_id = Some att →
  (rpk ← Attachment.current_revision att; revisions db !! rpk) = None →
  raw_file K settings request attachment_id filename db = (Raise Http404, db).
Proof.
  intros Hatt Hnone. unfold raw_file, mbind, Eff_bind, query, lift.
  rewrite get_object_or_404_pk, select_related_lookup, Hatt. simpl.
  destruct (Attachment.current_revision att) as [rpk|]; simpl in *; [|done].
  by rewrite Hnone.
Qed.

Lemma raw_file_found request attachment_id filename db att rpk rev :
  attachments db !! attachment_id = Some att →
  Attachment.current_revision att = Some rpk →
  revisions db !! rpk = Some rev →
  raw_file K settings request attachment_id filename db =
  if is_untrusted K request
  then (stream_raw_file K settings (rpk, rev) request, db)
  else (Return (redirect (get_file_url K db (attachment_id, att)) true), db).
Proof.
  intros Hatt Hcur Hrev. unfold raw_file, mbind, Eff_bind, query, lift.
  rewrite get_object_or_404_pk, select_related_lookup, Hatt. simpl.
  rewrite Hcur. simpl. rewrite Hrev. simpl.
  by destruct (is_untrusted K request).
Qed.

(** The ways the inner view can end: the read-ahead raises; or it goes
    well and the size query answers, fails with [OSError], or fails with
    something else. *)
Lemma stream_raw_file_unreadable rev request e :
  DEBUG settings = true →
  File.content (AttachmentRevision.file rev.2) = Raise e →
  stream_raw_file K settings rev request = Raise e.
Proof.
  intros Hdebug Hcontent. unfold stream_raw_file, cache_control, File.read.
  by rewrite Hdebug, Hcontent.
Qed.

Lemma read_ahead_file (f : File.t) :
  read_ahead_succeeds settings f →
  ∃ f',
    (if DEBUG settings
     then read_ahead ← File.read File.DEFAULT_CHUNK_SIZE f; mret read_ahead.2
     else mret f) = Return f' ∧
    File.content f' = File.content f ∧
    File.size f' = File.size f.
Proof.
  intros [Hdebug|[bytes Hbytes]].
  - rewrite Hdebug. by exists f.
  - destruct (DEBUG settings); [|by exists f].
    unfold File.read. rewrite Hbytes. simpl. by eexists.
Qed.

Lemma stream_raw_file_sized rev request n :
  read_ahead_succeeds settings (AttachmentRevision.file rev.2) →
  File.size (AttachmentRevision.file rev.2) = Return n →
  ∃ response,
    stream_raw_file K settings rev request = Return response ∧
    status_code response = 200%Z ∧
    streamed_bytes response =
      Some (File.content (AttachmentRevision.file rev.2)) ∧
    headers response !! "Content-Length" = Some (pretty n) ∧
    headers response !! "Content-Type" =
      Some (AttachmentRevision.mime_type rev.2) ∧
    headers response !! "Last-Modified" =
      Some (convert_to_http_date K (AttachmentRevision.created rev.2)) ∧
    headers response !! "Cache-Control" = Some "public, max-age=900" ∧
    headers response !! "X-Frame-Options" =
      Some ("ALLOW-FROM " +:+ DOMAIN settings).
Proof.
  intros Hahead Hsize.
  destruct (read_ahead_file _ Hahead) as (f' & Hf' & Hcontent & Hsize').
  unfold stream_raw_file, cache_control. rewrite Hf'. simpl.
  rewrite Hsize', Hsize. simpl.
  eexists; split; [reflexivity|].
  unfold streamed_bytes; simpl. rewrite streamed_file, Hcontent.
  repeat split; by simplify_map_eq.
Qed.

Lemma stream_raw_file_OSError rev request :
  read_ahead_succeeds settings (AttachmentRevision.file rev.2) →
  File.size (AttachmentRevision.file rev.2) = Raise OSError →
  ∃ response,
    stream_raw_file K settings rev request = Return response ∧
    status_code response = 200%Z ∧
    streamed_bytes response =
      Some (File.content (AttachmentRevision.file rev.2)) ∧
    headers response !! "Content-Length" = None ∧
    headers response !! "Content-Type" =
      Some (AttachmentRevision.mime_type rev.2) ∧
    headers response !! "Last-Modified" =
      Some (convert_to_http_date K (AttachmentRevision.created rev.2)) ∧
    headers response !! "Cache-Control" = Some "public, max-age=900" ∧
    headers response !! "X-Frame-Options" =
      Some ("ALLOW-FROM " +:+ DOMAIN settings).
Proof.
  intros Hahead Hsize.
  destruct (read_ahead_file _ Hahead) as (f' & Hf' & Hcontent & Hsize').
  unfold stream_raw_file, cache_control. rewrite Hf'. simpl.
  rewrite Hsize', Hsize. simpl.
  eexists; split; [reflexivity|].
  unfold streamed_bytes; simpl. rewrite streamed_file, Hcontent.
  repeat split; by simplify_map_eq.
Qed.

Lemma stream_raw_file_propagates rev request e :
  read_ahead_succeeds settings (AttachmentRevision.file rev.2) →
  File.size (AttachmentRevision.file rev.2) = Raise e →
  e ≠ OSError →
  stream_raw_file K settings rev request = Raise e.
Proof.
  intros Hahead Hsize Hne.
  destruct (read_ahead_file _ Hahead) as (f' & Hf' & Hcontent & Hsize').
  unfold stream_raw_file, cache_control. rewrite Hf'. simpl.
  rewrite Hsize', Hsize. simpl. by rewrite decide_False.
Qed.

End raw_file_facts.

(** C2 (as amended): for every attachment that exists and has a current
    revision whose stored file can be read and whose size query either
    answers or fails with [OSError], an untrusted request to [raw_file]
    returns a 200 streaming response whose body is the revision's stored
    bytes, with [Content-Type] the revision's MIME type, [Last-Modified]
    derived from its creation time, [Cache-Control: public, max-age=900]
    and [X-Frame-Options: ALLOW-FROM <DOMAIN>]; the database is left as it
    was. *)
Theorem raw_file_untrusted_streams K settings request attachment_id filename
    db att rpk rev bytes :
  attachments db !! attachment_id = Some att →
  Attachment.current_revision att = Some rpk →
  revisions db !! rpk = Some rev →
  is_untrusted K request = true →
  File.content (AttachmentRevision.file rev) = Return bytes →
  (∀ e, File.size (AttachmentRevision.file rev) = Raise e → e = OSError) →
  ∃ response,
    raw_file K settings request attachment_id filename db
      = (Return response, db) ∧
    status_code response = 200%Z ∧
    streamed_bytes response = Some (Return bytes) ∧
    headers response !! "Content-Type" = Some (AttachmentRevision.mime_type rev) ∧
    headers response !! "Last-Modified" =
      Some (convert_to_http_date K (AttachmentRevision.created rev)) ∧
    headers response !! "Cache-Control" = Some "public, max-age=900" ∧
    headers response !! "X-Frame-Options" =
      Some ("ALLOW-FROM " +:+ DOMAIN settings).
Proof.
  intros Hatt Hcur Hrev Huntrusted Hbytes Hsize.
  rewrite (raw_file_found K settings _ _ _ _ _ _ _ Hatt Hcur Hrev), Huntrusted.
  assert (Hahead : read_ahead_succeeds settings
                     (AttachmentRevision.file (rpk, rev).2))
    by (right; by exists bytes).
  destruct (File.size (AttachmentRevision.file rev)) as [n|e] eqn:Hq.
  - destruct (stream_raw_file_sized K settings (rpk, rev) request n Hahead Hq)
      as (response & -> & ? & Hbody & ? & ? & ? & ? & ?).
    simpl in Hbody. rewrite Hbytes in Hbody. by exists response.
  - rewrite (Hsize e eq_refl) in Hq.
    destruct (stream_raw_file_OSError K settings (rpk, rev) request Hahead Hq)
      as (response & -> & ? & Hbody & ? & ? & ? & ? & ?).
    simpl in Hbody. rewrite Hbytes in Hbody. by exists response.
Qed.

Lemma raw_file_untrusted_streams_witness :
  ∃ response,
    raw_file Demo.K Demo.settings Demo.untrusted_get 1 "logo.png" Demo.db
      = (Return response, Demo.db) ∧
    status_code response = 200%Z ∧
    streamed_bytes response = Some (Return Demo.png) ∧
    headers response !! "Content-Type" = Some "image/png" ∧
    headers response !! "Last-Modified" = Some "epoch+1478217600" ∧
    headers response !! "Cache-Control" = Some "public, max-age=900" ∧
    headers response !! "X-Frame-Options" =
      Some "ALLOW-FROM developer.mozilla.org".
Proof.
  apply (raw_file_untrusted_streams Demo.K Demo.settings Demo.untrusted_get
           1 "logo.png" Demo.db
           (Attachment.Build "Logo" (Some 7%Z) (Some 10%Z)) 10
           (Demo.revision_of 1 Demo.logo) Demo.png).
  - reflexivity.
  - reflexivity.
  - reflexivity.
  - reflexivity.
  - reflexivity.
  - simpl. intros e He. discriminate He.
Defined.

(** C2, the stated claim fails: attachment 3 exists and has a current
    revision, the request is untrusted, and the storage of the revision's
    file cannot report a size ([NotImplementedError]): [raw_file] raises
    instead of returning a 200 response. *)
Lemma raw_file_untrusted_unsized_raises :
  attachments Demo.db !! 3%Z = Some (Attachment.Build "Remote" None (Some 11%Z)) ∧
  revisions Demo.db !! 11%Z = Some (Demo.revision_of 3 Demo.unsized) ∧
  is_untrusted Demo.K Demo.untrusted_get = true ∧
  raw_file Demo.K Demo.settings Demo.untrusted_get 3 "remote.png" Demo.db
    = (Raise NotImplementedError, Demo.db) ∧
  surfaced_status
    (raw_file Demo.K Demo.settings Demo.untrusted_get 3 "remote.png" Demo.db).1
    = 500%Z.
Proof. repeat split; vm_compute; reflexivity. Qed.

(** C3: for every attachment that exists and has a current revision, a
    trusted request to [raw_file] returns a permanent (301) redirect to the
    attachment's [get_file_url]; the response streams nothing and the
    database is left as it was. *)
Theorem raw_file_trusted_redirects K settings request attachment_id filename
    db att rpk rev :
  attachments db !! attachment_id = Some att →
  Attachment.current_revision att = Some rpk →
  revisions db !! rpk = Some rev →
  is_untrusted K request = false →
  let url := get_file_url K db (attachment_id, att) in
  raw_file K settings request attachment_id filename db
    = (Return (redirect url true), db) ∧
  status_code (redirect url true) = 301%Z ∧
  headers (redirect url true) !! "Location" = Some url ∧
  body (redirect url true) = NoBody ∧
  streamed_bytes (redirect url true) = None.
Proof.
  intros Hatt Hcur Hrev Htrusted url.
  rewrite (raw_file_found K settings _ _ _ _ _ _ _ Hatt Hcur Hrev), Htrusted.
  repeat split.
Qed.

Lemma raw_file_trusted_redirects_witness :
  raw_file Demo.K Demo.settings Demo.trusted_get 1 "logo.png" Demo.db
    = (Return (redirect "/files/1/" true), Demo.db) ∧
  status_code (redirect "/files/1/" true) = 301%Z ∧
  headers (redirect "/files/1/" true) !! "Location" = Some "/files/1/" ∧
  body (redirect "/files/1/" true) = NoBody ∧
  streamed_bytes (redirect "/files/1/" true) = None.
Proof.
  apply (raw_file_trusted_redirects Demo.K Demo.settings Demo.trusted_get
           1 "logo.png" Demo.db
           (Attachment.Build "Logo" (Some 7%Z) (Some 10%Z)) 10
           (Demo.revision_of 1 Demo.logo));
    reflexivity.
Defined.

(** C8 (as amended): on an untrusted serve of an attachment with a current
    revision, when the read-ahead of [DEBUG] mode does not fail ([DEBUG] is
    off, or the stored file can be read): a size query that answers puts
    that size in [Content-Length]; a size query that fails with [OSError]
    is swallowed: a 200 streaming response is still returned, with all the
    other headers and without [Content-Length].  In both cases what the
    response streams is what opening the stored file gives. *)
Theorem raw_file_content_length K settings request attachment_id filename
    db att rpk rev :
  attachments db !! attachment_id = Some att →
  Attachment.current_revision att = Some rpk →
  revisions db !! rpk = Some rev →
  is_untrusted K request = true →
  DEBUG settings = false ∨
    (∃ bytes, File.content (AttachmentRevision.file rev) = Return bytes) →
  (∀ n, File.size (AttachmentRevision.file rev) = Return n →
     ∃ response,
       raw_file K settings request attachment_id filename db
         = (Return response, db) ∧
       status_code response = 200%Z ∧
       streamed_bytes response =
         Some (File.content (AttachmentRevision.file rev)) ∧
       headers response !! "Content-Length" = Some (pretty n)) ∧
  (File.size (AttachmentRevision.file rev) = Raise OSError →
     ∃ response,
       raw_file K settings request attachment_id filename db
         = (Return response, db) ∧
       status_code response = 200%Z ∧
       streamed_bytes response =
         Some (File.content (AttachmentRevision.file rev)) ∧
       headers response !! "Content-Length" = None ∧
       headers response !! "Content-Type" =
         Some (AttachmentRevision.mime_type rev) ∧
       headers response !! "Last-Modified" =
         Some (convert_to_http_date K (AttachmentRevision.created rev)) ∧
       headers response !! "Cache-Control" = Some "public, max-age=900" ∧
       headers response !! "X-Frame-Options" =
         Some ("ALLOW-FROM " +:+ DOMAIN settings)).
Proof.
  intros Hatt Hcur Hrev Huntrusted Hahead.
  rewrite (raw_file_found K settings _ _ _ _ _ _ _ Hatt Hcur Hrev), Huntrusted.
  split.
  - intros n Hq.
    destruct (stream_raw_file_sized K settings (rpk, rev) request n Hahead Hq)
      as (response & -> & ? & ? & ? & _).
    by exists response.
  - intros Hq.
    destruct (stream_raw_file_OSError K settings (rpk, rev) request Hahead Hq)
      as (response & -> & ?).
    by exists response.
Qed.

Lemma raw_file_content_length_witness :
  (∃ response,
     raw_file Demo.K Demo.settings Demo.untrusted_get 1 "logo.png" Demo.db
       = (Return response, Demo.db) ∧
     status_code response = 200%Z ∧
     streamed_bytes response = Some (Return Demo.png) ∧
     headers response !! "Content-Length" = Some "4") ∧
  (∃ response,
     raw_file Demo.K Demo.production Demo.untrusted_get 4 "gone.png" Demo.db
       = (Return response, Demo.db) ∧
     status_code response = 200%Z ∧
     streamed_bytes response = Some (Raise OSError) ∧
     headers response !! "Content-Length" = None ∧
     headers response !! "Content-Type" = Some "image/png" ∧
     headers response !! "Last-Modified" = Some "epoch+1478217600" ∧
     headers response !! "Cache-Control" = Some "public, max-age=900" ∧
     headers response !! "X-Frame-Options" =
       Some "ALLOW-FROM developer.mozilla.org").
Proof.
  split.
  - apply (proj1 (raw_file_content_length Demo.K Demo.settings
             Demo.untrusted_get 1 "logo.png" Demo.db
             (Attachment.Build "Logo" (Some 7%Z) (Some 10%Z)) 10
             (Demo.revision_of 1 Demo.logo)
             eq_refl eq_refl eq_refl eq_refl
             (or_intror (ex_intro _ Demo.png eq_refl))) 4%Z).
    reflexivity.
  - apply (proj2 (raw_file_content_length Demo.K Demo.production
             Demo.untrusted_get 4 "gone.png" Demo.db
             (Attachment.Build "Gone" None (Some 12%Z)) 12
             (Demo.revision_of 4 Demo.vanished)
             eq_refl eq_refl eq_refl eq_refl
             (or_introl eq_refl))).
    reflexivity.
Defined.

(** C8, the stated claim fails: the size query of attachment 3's file
    fails with [NotImplementedError], which [except OSError] does not
    catch; the error reaches the user and no response is returned. *)
Lemma raw_file_size_failure_propagates :
  File.size Demo.unsized = Raise NotImplementedError ∧
  is_untrusted Demo.K Demo.untrusted_get = true ∧
  stream_raw_file Demo.K Demo.production (11%Z, Demo.revision_of 3 Demo.unsized)
    Demo.untrusted_get = Raise NotImplementedError ∧
  (raw_file Demo.K Demo.production Demo.untrusted_get 3 "remote.png" Demo.db).1
    = Raise NotImplementedError.
Proof. repeat split; vm_compute; reflexivity. Qed.

(** C9: the result of [raw_file] and of [mindtouch_file_redirect] (outcome
    and database) is the same for any two values of the filename
    argument. *)
Theorem filename_is_ignored K settings request attachment_id file_id
    (filename1 filename2 : string) db :
  raw_file K settings request attachment_id filename1 db
    = raw_file K settings request attachment_id filename2 db ∧
  mindtouch_file_redirect K request file_id filename1 db
    = mindtouch_file_redirect K request file_id filename2 db.
Proof. split; reflexivity. Qed.

(** ** mindtouch_file_redirect *)

Lemma mindtouch_file_redirect_unfold K request file_id filename db :
  mindtouch_file_redirect K request file_id filename db =
  match get_object_or_404 (attachments db)
          (λ obj, Attachment.mindtouch_attachment_id obj.2 = Some file_id) with
  | Return attachment =>
      (Return (redirect (get_file_url K db attachment) true), db)
  | Raise e => (Raise e, db)
  end.
Proof.
  unfold mindtouch_file_redirect, mbind, Eff_bind, query, lift.
  by destruct (get_object_or_404 _ _).
Qed.

(** Rows of a table written out in full, one by one. *)
Ltac each_row H :=
  apply elem_of_map_to_list, list_elem_of_In in H; vm_compute in H;
  destruct_or!; simplify_eq; try done.

(** C7: [mindtouch_file_redirect] ends in not-found (404) exactly when no
    attachment carries the legacy identifier; when exactly one attachment
    carries it, the result is a permanent (301) redirect to that
    attachment's [get_file_url]; in every case the database is left as it
    was. *)
Theorem mindtouch_file_redirect_spec K request file_id filename db :
  let result := mindtouch_file_redirect K request file_id filename db in
  (result.1 = Raise Http404 ↔
     ∀ pk att, attachments db !! pk = Some att →
       Attachment.mindtouch_attachment_id att ≠ Some file_id) ∧
  (surfaced_status result.1 = 404%Z ↔
     ∀ pk att, attachments db !! pk = Some att →
       Attachment.mindtouch_attachment_id att ≠ Some file_id) ∧
  (∀ pk att,
     attachments db !! pk = Some att →
     Attachment.mindtouch_attachment_id att = Some file_id →
     (∀ pk' att', attachments db !! pk' = Some att' →
        Attachment.mindtouch_attachment_id att' = Some file_id → pk' = pk) →
     result.1 = Return (redirect (get_file_url K db (pk, att)) true) ∧
     surfaced_status result.1 = 301%Z ∧
     headers (redirect (get_file_url K db (pk, att)) true) !! "Location"
       = Some (get_file_url K db (pk, att))) ∧
  result.2 = db.
Proof.
  intros result. subst result. rewrite mindtouch_file_redirect_unfold.
  pose proof (get_object_or_404_Http404 (attachments db)
    (λ obj, Attachment.mindtouch_attachment_id obj.2 = Some file_id)) as H404.
  simpl in H404. rewrite <- H404.
  repeat split.
  - by destruct (get_object_or_404 _ _) as [obj|e]; simpl; intros; simplify_eq.
  - by intros ->.
  - destruct (get_object_or_404 _ _) as [obj|e]; simpl; [done|].
    by destruct e.
  - by intros ->.
  - by erewrite get_object_or_404_only.
  - by erewrite get_object_or_404_only.
  - by destruct (get_object_or_404 _ _).
Qed.

Lemma mindtouch_file_redirect_spec_witness :
  (mindtouch_file_redirect Demo.K Demo.trusted_get 7 "logo.png" Demo.db).1
    = Return (redirect "/files/1/" true) ∧
  surfaced_status
    (mindtouch_file_redirect Demo.K Demo.trusted_get 7 "logo.png" Demo.db).1
    = 301%Z ∧
  headers (redirect "/files/1/" true) !! "Location" = Some "/files/1/".
Proof.
  apply (proj1 (proj2 (proj2
    (mindtouch_file_redirect_spec Demo.K Demo.trusted_get 7 "logo.png"
       Demo.db)))
    1%Z (Attachment.Build "Logo" (Some 7%Z) (Some 10%Z))).
  - reflexivity.
  - reflexivity.
  - intros pk' att' Hrow Hlegacy. each_row Hrow.
Defined.


(** ** edit_attachment *)

Section edit_attachment_facts.

Context (K : Collaborators) (db : Database) (request : HttpRequest)
  (document_slug document_locale : string) (pk : Z) (document : Document.t).

(** The document of the path exists: one row, and only one, has the
    locale and the slug. *)
Hypothesis Hdocument : documents db !! pk = Some document.
Hypothesis Hlocale : Document.locale document = document_locale.
Hypothesis Hslug : Document.slug document = document_slug.
Hypothesis Honly : ∀ pk' row',
  documents db !! pk' = Some row' →
  Document.locale row' = document_locale →
  Document.slug row' = document_slug →
  pk' = pk.

Lemma edit_attachment_document :
  get_object_or_404 (documents db) (λ obj,
    Document.locale obj.2 = document_locale ∧
    Document.slug obj.2 = document_slug) = Return (pk, document).
Proof.
  apply get_object_or_404_only; [done..|].
  intros pk' row' Hrow [Hl Hs]. by apply (Honly pk' row').
Qed.

Ltac enter_view :=
  unfold edit_attachment, mbind, Eff_bind, query, lift;
  rewrite edit_attachment_document; simpl.

Lemma edit_attachment_denied :
  method request = "POST" →
  allow_add_attachment_by K (user request) = false →
  edit_attachment K request document_slug document_locale db
    = (Raise PermissionDenied, db).
Proof.
  intros HPOST Hdenied. enter_view.
  rewrite decide_False by (by intros []). by rewrite Hdenied.
Qed.


(** C5: a POST by a user with upload permission on an existing document,
    with an invalid form, returns a 200 response that renders the upload
    form template with the bound form, whose error list is not empty, and
    the document in the context; the database is left as it was. *)
Theorem edit_attachment_invalid_form :
  let form := {| data := POST request; files := FILES request |} in
  let context : gmap string ContextValue :=
    {[ "form" := CtxForm form; "document" := CtxDocument (pk, document) ]} in
  let response := render request "attachments/edit_attachment.html" context in
  method request = "POST" →
  allow_add_attachment_by K (user request) = true →
  is_valid K form = false →
  edit_attachment K request document_slug document_locale db
    = (Return response, db) ∧
  status_code response = 200%Z ∧
  body response = Rendered "attachments/edit_attachment.html" context ∧
  context !! "form" = Some (CtxForm form) ∧
  context !! "document" = Some (CtxDocument (pk, document)) ∧
  errors K form ≠ [].
Proof.
  intros form context response HPOST Hallow Hinvalid.
  repeat split; try done.
  - enter_view. rewrite decide_False by (by intros []).
    rewrite Hallow. simpl. fold form. by rewrite Hinvalid.
  - by apply bool_decide_eq_false in Hinvalid.
Qed.

(** C6: a POST by a user without upload permission on an existing
    document raises [PermissionDenied], which surfaces as HTTP 403; the
    database is left as it was. *)
Theorem edit_attachment_permission_denied :
  method request = "POST" →
  allow_add_attachment_by K (user request) = false →
  edit_attachment K request document_slug document_locale db
    = (Raise PermissionDenied, db) ∧
  surfaced_status
    (edit_attachment K request document_slug document_locale db).1 = 403%Z.
Proof.
  intros HPOST Hdenied. by rewrite edit_attachment_denied.
Qed.


End edit_attachment_facts.


Lemma edit_attachment_invalid_form_witness :
  edit_attachment Demo.K Demo.upload_without_title "Web/CSS" "en-US" Demo.db
    = (Return (render Demo.upload_without_title
                 "attachments/edit_attachment.html" Demo.form_context),
       Demo.db) ∧
  status_code (render Demo.upload_without_title
                 "attachments/edit_attachment.html" Demo.form_context)
    = 200%Z ∧
  body (render Demo.upload_without_title
          "attachments/edit_attachment.html" Demo.form_context)
    = Rendered "attachments/edit_attachment.html" Demo.form_context ∧
  Demo.form_context !! "form" = Some (CtxForm Demo.form_without_title) ∧
  Demo.form_context !! "document"
    = Some (CtxDocument (1%Z, Document.Build "en-US" "Web/CSS")) ∧
  errors Demo.K Demo.form_without_title ≠ [].
Proof.
  apply (edit_attachment_invalid_form Demo.K Demo.db Demo.upload_without_title
           "Web/CSS" "en-US" 1 (Document.Build "en-US" "Web/CSS")).
  - reflexivity.
  - reflexivity.
  - reflexivity.
  - intros pk' row' Hrow _ _. each_row Hrow.
  - reflexivity.
  - reflexivity.
  - reflexivity.
Defined.

Lemma edit_attachment_permission_denied_witness :
  edit_attachment Demo.K (Demo.upload Demo.banned) "Web/CSS" "en-US" Demo.db
    = (Raise PermissionDenied, Demo.db) ∧
  surfaced_status
    (edit_attachment Demo.K (Demo.upload Demo.banned) "Web/CSS" "en-US"
       Demo.db).1 = 403%Z.
Proof.
  apply (edit_attachment_permission_denied Demo.K Demo.db
           (Demo.upload Demo.banned) "Web/CSS" "en-US" 1
           (Document.Build "en-US" "Web/CSS")).
  - reflexivity.
  - reflexivity.
  - reflexivity.
  - intros pk' row' Hrow _ _. each_row Hrow.
  - reflexivity.
  - reflexivity.
Defined.



(** * Further properties of the views *)

(** ** raw_file *)

(** X1: [raw_file] answers not-found, and leaves the database as it was,
    when no attachment has the key, when the attachment's current revision
    is null, and when its key points to no revision. *)
Theorem raw_file_not_found K settings request attachment_id filename db :
  attachments db !! attachment_id = None ∨
  (∃ att, attachments db !! attachment_id = Some att ∧
     (Attachment.current_revision att = None ∨
      ∃ rpk, Attachment.current_revision att = Some rpk ∧
             revisions db !! rpk = None)) →
  raw_file K settings request attachment_id filename db = (Raise Http404, db) ∧
  surfaced_status
    (raw_file K settings request attachment_id filename db).1 = 404%Z.
Proof.
  intros Hcase.
  assert (Hview : raw_file K settings request attachment_id filename db
                  = (Raise Http404, db)).
  { destruct Hcase as [Hnone|(att & Hatt & Hrev)].
    - by apply raw_file_missing.
    - apply (raw_file_no_current_revision K settings _ _ _ _ att Hatt).
      destruct Hrev as [->|(rpk & -> & Hrow)]; [done|]. exact Hrow. }
  by rewrite Hview.
Qed.

Lemma raw_file_not_found_witness :
  (raw_file Demo.K Demo.settings Demo.untrusted_get 9 "none.png" Demo.db
     = (Raise Http404, Demo.db) ∧
   surfaced_status
     (raw_file Demo.K Demo.settings Demo.untrusted_get 9 "none.png" Demo.db).1
     = 404%Z) ∧
  (raw_file Demo.K Demo.settings Demo.untrusted_get 2 "draft.png" Demo.db
     = (Raise Http404, Demo.db) ∧
   surfaced_status
     (raw_file Demo.K Demo.settings Demo.untrusted_get 2 "draft.png" Demo.db).1
     = 404%Z).
Proof.
  split.
  - apply (raw_file_not_found Demo.K Demo.settings Demo.untrusted_get 9
             "none.png" Demo.db).
    left. reflexivity.
  - apply (raw_file_not_found Demo.K Demo.settings Demo.untrusted_get 2
             "draft.png" Demo.db).
    right. exists (Attachment.Build "Draft" (Some 8%Z) None).
    split; [reflexivity|]. left. reflexivity.
Defined.

(** The view seen from the row of the attachment. *)
Lemma raw_file_cases K settings request attachment_id filename db :
  raw_file K settings request attachment_id filename db =
  match attachments db !! attachment_id with
  | None => (Raise Http404, db)
  | Some att =>
      match rpk ← Attachment.current_revision att;
            rev ← revisions db !! rpk; Some (rpk, rev) with
      | None => (Raise Http404, db)
      | Some rev =>
          if is_untrusted K request
          then (stream_raw_file K settings rev request, db)
          else (Return (redirect (get_file_url K db (attachment_id, att)) true),
                db)
      end
  end.
Proof.
  unfold raw_file, mbind at 1 2, Eff_bind, query, lift.
  rewrite get_object_or_404_pk, select_related_lookup.
  destruct (attachments db !! attachment_id) as [att|]; simpl; [|done].
  destruct (_ ≫= _) as [rev|]; simpl; [|done].
  by destruct (is_untrusted K request).
Qed.

(** X2: [raw_file] never changes the database, whether it returns a
    response or raises. *)
Theorem raw_file_read_only K settings request attachment_id filename db :
  (raw_file K settings request attachment_id filename db).2 = db.
Proof.
  rewrite raw_file_cases.
  destruct (attachments db !! attachment_id) as [att|]; [|done].
  destruct (_ ≫= _) as [rev|]; [|done].
  by destruct (is_untrusted K request).
Qed.

(** The inner view returns a 200 response, or raises what the read-ahead
    of [DEBUG] mode raised, or what the size query raised, which is then
    not [OSError]. *)
Lemma stream_raw_file_outcomes K settings rev request :
  (∃ response,
     stream_raw_file K settings rev request = Return response ∧
     status_code response = 200%Z) ∨
  (∃ e,
     stream_raw_file K settings rev request = Raise e ∧
     ((DEBUG settings = true ∧
       File.content (AttachmentRevision.file rev.2) = Raise e) ∨
      (File.size (AttachmentRevision.file rev.2) = Raise e ∧ e ≠ OSError))).
Proof.
  assert (Hahead : read_ahead_succeeds settings (AttachmentRevision.file rev.2)
                   ∨ ∃ e, DEBUG settings = true ∧
                          File.content (AttachmentRevision.file rev.2) = Raise e).
  { unfold read_ahead_succeeds.
    destruct (DEBUG settings); [|by left; left].
    destruct (File.content _) as [bytes|e]; [left; right|right]; eauto. }
  destruct Hahead as [Hahead|(e & Hdebug & Hcontent)].
  - destruct (File.size (AttachmentRevision.file rev.2)) as [n|e] eqn:Hsize.
    + left.
      destruct (stream_raw_file_sized K settings rev request n Hahead Hsize)
        as (response & ? & ? & _).
      by exists response.
    + destruct (decide (e = OSError)) as [->|Hne].
      * left.
        destruct (stream_raw_file_OSError K settings rev request Hahead Hsize)
          as (response & ? & ? & _).
        by exists response.
      * right. exists e.
        rewrite (stream_raw_file_propagates K settings rev request e) by done.
        auto.
  - right. exists e.
    rewrite (stream_raw_file_unreadable K settings rev request e) by done.
    auto.
Qed.

(** X3: whatever the database and the request, [raw_file] ends in one of
    four ways: [Http404]; a 200 response, for an untrusted request; a
    permanent redirect, for a trusted one; or, for an untrusted request,
    an exception, which is an [OSError] only when [DEBUG] is on (the
    unguarded read-ahead).  So it never answers with a temporary redirect,
    and with [DEBUG] off it never lets an [OSError] out. *)
Theorem raw_file_outcomes K settings request attachment_id filename db :
  let outcome := (raw_file K settings request attachment_id filename db).1 in
  (outcome = Raise Http404 ∨
   (is_untrusted K request = true ∧
    ∃ response, outcome = Return response ∧ status_code response = 200%Z) ∨
   (is_untrusted K request = false ∧
    ∃ url, outcome = Return (redirect url true)) ∨
   (is_untrusted K request = true ∧
    ∃ e, outcome = Raise e ∧ (DEBUG settings = true ∨ e ≠ OSError))) ∧
  (DEBUG settings = false → outcome ≠ Raise OSError) ∧
  (∀ url, outcome ≠ Return (redirect url false)).
Proof.
  intros outcome. subst outcome. rewrite raw_file_cases.
  destruct (attachments db !! attachment_id) as [att|]; simpl;
    [|by split; [left|split]].
  destruct (_ ≫= _) as [rev|]; simpl; [|by split; [left|split]].
  destruct (is_untrusted K request) eqn:Htrust; simpl.
  - destruct (stream_raw_file_outcomes K settings rev request)
      as [(response & -> & Hstatus)|(e & -> & Hwhy)].
    + split; [right; left; eauto|split; [done|]].
      intros url [= ->]. done.
    + split; [|split; [|done]].
      * do 3 right. split; [done|]. exists e. split; [done|].
        destruct Hwhy as [[? _]|[_ ?]]; auto.
      * intros Hdebug [= ->]. destruct Hwhy as [[? _]|[_ ?]]; congruence.
  - split; [right; right; left; eauto|split; [done|]].
    intros url Heq. simplify_eq.
Qed.

Lemma raw_file_outcomes_witness :
  (raw_file Demo.K Demo.production Demo.untrusted_get 4 "gone.png" Demo.db).1
    ≠ Raise OSError.
Proof.
  apply (raw_file_outcomes Demo.K Demo.production Demo.untrusted_get 4
           "gone.png" Demo.db).
  reflexivity.
Defined.



(** X5: on an untrusted serve of an attachment with a current revision,
    when the read-ahead of [DEBUG] mode does not fail ([DEBUG] is off, or
    the stored file can be read), an exception of the size query other
    than [OSError] comes out of [raw_file] unchanged, through
    [cache_control], and the database is left as it was. *)
Theorem raw_file_reraises_size_error K settings request attachment_id filename
    db att rpk rev e :
  attachments db !! attachment_id = Some att →
  Attachment.current_revision att = Some rpk →
  revisions db !! rpk = Some rev →
  is_untrusted K request = true →
  DEBUG settings = false ∨
    (∃ bytes, File.content (AttachmentRevision.file rev) = Return bytes) →
  File.size (AttachmentRevision.file rev) = Raise e →
  e ≠ OSError →
  raw_file K settings request attachment_id filename db = (Raise e, db).
Proof.
  intros Hatt Hcur Hrev Huntrusted Hahead Hsize Hne.
  rewrite (raw_file_found K settings _ _ _ _ _ _ _ Hatt Hcur Hrev), Huntrusted.
  by rewrite (stream_raw_file_propagates K settings (rpk, rev) request e).
Qed.

Lemma raw_file_reraises_size_error_witness :
  raw_file Demo.K Demo.settings Demo.untrusted_get 3 "remote.png" Demo.db
    = (Raise NotImplementedError, Demo.db).
Proof.
  apply (raw_file_reraises_size_error Demo.K Demo.settings Demo.untrusted_get
           3 "remote.png" Demo.db
           (Attachment.Build "Remote" None (Some 11%Z)) 11
           (Demo.revision_of 3 Demo.unsized) NotImplementedError).
  - reflexivity.
  - reflexivity.
  - reflexivity.
  - reflexivity.
  - right. exists Demo.png. reflexivity.
  - reflexivity.
  - discriminate.
Defined.

(** X6: [raw_file] looks at the request only to classify it: two requests
    with the same classification get the same result, whatever their
    method, user and payload.  [mindtouch_file_redirect] does not look at
    the request at all. *)
Theorem views_ignore_request K settings request1 request2 attachment_id
    file_id filename db :
  is_untrusted K request1 = is_untrusted K request2 →
  raw_file K settings request1 attachment_id filename db
    = raw_file K settings request2 attachment_id filename db ∧
  mindtouch_file_redirect K request1 file_id filename db
    = mindtouch_file_redirect K request2 file_id filename db.
Proof.
  intros Hsame. split; [|reflexivity].
  rewrite !raw_file_cases, Hsame.
  destruct (attachments db !! attachment_id) as [att|]; [|done].
  destruct (_ ≫= _) as [rev|]; [|done].
  by destruct (is_untrusted K request2).
Qed.

Lemma views_ignore_request_witness :
  raw_file Demo.K Demo.settings Demo.trusted_get 1 "logo.png" Demo.db
    = raw_file Demo.K Demo.settings (Demo.upload Demo.banned) 1 "logo.png"
        Demo.db ∧
  mindtouch_file_redirect Demo.K Demo.trusted_get 7 "logo.png" Demo.db
    = mindtouch_file_redirect Demo.K (Demo.upload Demo.banned) 7 "logo.png"
        Demo.db.
Proof.
  apply (views_ignore_request Demo.K Demo.settings Demo.trusted_get
           (Demo.upload Demo.banned) 1 7 "logo.png" Demo.db).
  reflexivity.
Defined.

(** X7: on an untrusted serve of an attachment with a current revision,
    when the read-ahead of [DEBUG] mode does not fail ([DEBUG] is off, or
    the stored file can be read), the response carries exactly these
    headers and no other: [Content-Type], [Last-Modified],
    [X-Frame-Options], [Cache-Control], and [Content-Length] when the size
    query answers. *)
Theorem raw_file_untrusted_header_set K settings request attachment_id filename
    db att rpk rev :
  attachments db !! attachment_id = Some att →
  Attachment.current_revision att = Some rpk →
  revisions db !! rpk = Some rev →
  is_untrusted K request = true →
  DEBUG settings = false ∨
    (∃ bytes, File.content (AttachmentRevision.file rev) = Return bytes) →
  let common : gmap string string :=
    {[ "Content-Type" := AttachmentRevision.mime_type rev;
       "Last-Modified" :=
         convert_to_http_date K (AttachmentRevision.created rev);
       "X-Frame-Options" := "ALLOW-FROM " +:+ DOMAIN settings;
       "Cache-Control" := "public, max-age=900" ]} in
  (∀ n, File.size (AttachmentRevision.file rev) = Return n →
     ∃ response,
       raw_file K settings request attachment_id filename db
         = (Return response, db) ∧
       headers response = <["Content-Length" := pretty n]> common) ∧
  (File.size (AttachmentRevision.file rev) = Raise OSError →
     ∃ response,
       raw_file K settings request attachment_id filename db
         = (Return response, db) ∧
       headers response = common).
Proof.
  intros Hatt Hcur Hrev Huntrusted Hahead common.
  rewrite (raw_file_found K settings _ _ _ _ _ _ _ Hatt Hcur Hrev), Huntrusted.
  destruct (read_ahead_file settings (AttachmentRevision.file rev) Hahead)
    as (f' & Hf' & _ & Hsize').
  unfold stream_raw_file, cache_control. simpl. rewrite Hf'. simpl.
  rewrite Hsize'.
  split; [intros n Hsize|intros Hsize];
    rewrite Hsize; simpl;
    (eexists; split; [reflexivity|]); simpl;
    apply map_eq; intros header; subst common;
    repeat (rewrite lookup_insert || rewrite lookup_singleton);
    repeat case_decide; simplify_eq; done.
Qed.

Lemma raw_file_untrusted_header_set_witness :
  (∃ response,
     raw_file Demo.K Demo.settings Demo.untrusted_get 1 "logo.png" Demo.db
       = (Return response, Demo.db) ∧
     headers response =
       {[ "Content-Length" := "4";
          "Content-Type" := "image/png";
          "Last-Modified" := "epoch+1478217600";
          "X-Frame-Options" := "ALLOW-FROM developer.mozilla.org";
          "Cache-Control" := "public, max-age=900" ]}) ∧
  (∃ response,
     raw_file Demo.K Demo.production Demo.untrusted_get 4 "gone.png" Demo.db
       = (Return response, Demo.db) ∧
     headers response =
       {[ "Content-Type" := "image/png";
          "Last-Modified" := "epoch+1478217600";
          "X-Frame-Options" := "ALLOW-FROM developer.mozilla.org";
          "Cache-Control" := "public, max-age=900" ]}).
Proof.
  split.
  - apply (proj1 (raw_file_untrusted_header_set Demo.K Demo.settings
             Demo.untrusted_get 1 "logo.png" Demo.db
             (Attachment.Build "Logo" (Some 7%Z) (Some 10%Z)) 10
             (Demo.revision_of 1 Demo.logo)
             eq_refl eq_refl eq_refl eq_refl
             (or_intror (ex_intro _ Demo.png eq_refl))) 4%Z).
    reflexivity.
  - apply (proj2 (raw_file_untrusted_header_set Demo.K Demo.production
             Demo.untrusted_get 4 "gone.png" Demo.db
             (Attachment.Build "Gone" None (Some 12%Z)) 12
             (Demo.revision_of 4 Demo.vanished)
             eq_refl eq_refl eq_refl eq_refl
             (or_introl eq_refl))).
    reflexivity.
Defined.

(** X16: for an untrusted serve of an attachment whose current revision's
    file cannot be opened: with [DEBUG] on, the read-ahead, which is not
    inside the [try], raises the exception of the open out of [raw_file],
    [OSError] included; with [DEBUG] off and a size query that answers or
    fails with [OSError], [raw_file] still returns a 200 response, and the
    exception only shows when the body is streamed. *)
Theorem raw_file_unreadable_file K settings request attachment_id filename
    db att rpk rev e :
  attachments db !! attachment_id = Some att →
  Attachment.current_revision att = Some rpk →
  revisions db !! rpk = Some rev →
  is_untrusted K request = true →
  File.content (AttachmentRevision.file rev) = Raise e →
  (DEBUG settings = true →
   raw_file K settings request attachment_id filename db = (Raise e, db)) ∧
  (DEBUG settings = false →
   (∀ e', File.size (AttachmentRevision.file rev) = Raise e' → e' = OSError) →
   ∃ response,
     raw_file K settings request attachment_id filename db
       = (Return response, db) ∧
     status_code response = 200%Z ∧
     streamed_bytes response = Some (Raise e)).
Proof.
  intros Hatt Hcur Hrev Huntrusted Hcontent.
  rewrite (raw_file_found K settings _ _ _ _ _ _ _ Hatt Hcur Hrev), Huntrusted.
  split.
  - intros Hdebug.
    by rewrite (stream_raw_file_unreadable K settings (rpk, rev) request e).
  - intros Hdebug Hsize.
    assert (Hahead : read_ahead_succeeds settings
                       (AttachmentRevision.file (rpk, rev).2)) by by left.
    destruct (File.size (AttachmentRevision.file rev)) as [n|e'] eqn:Hq.
    + destruct (stream_raw_file_sized K settings (rpk, rev) request n
                  Hahead Hq) as (response & -> & ? & Hbody & _).
      simpl in Hbody. rewrite Hcontent in Hbody. by exists response.
    + rewrite (Hsize e' eq_refl) in Hq.
      destruct (stream_raw_file_OSError K settings (rpk, rev) request
                  Hahead Hq) as (response & -> & ? & Hbody & _).
      simpl in Hbody. rewrite Hcontent in Hbody. by exists response.
Qed.

Lemma raw_file_unreadable_file_witness :
  raw_file Demo.K Demo.settings Demo.untrusted_get 4 "gone.png" Demo.db
    = (Raise OSError, Demo.db) ∧
  (∃ response,
     raw_file Demo.K Demo.production Demo.untrusted_get 4 "gone.png" Demo.db
       = (Return response, Demo.db) ∧
     status_code response = 200%Z ∧
     streamed_bytes response = Some (Raise OSError)).
Proof.
  split.
  - apply (proj1 (raw_file_unreadable_file Demo.K Demo.settings
             Demo.untrusted_get 4 "gone.png" Demo.db
             (Attachment.Build "Gone" None (Some 12%Z)) 12
             (Demo.revision_of 4 Demo.vanished) OSError
             eq_refl eq_refl eq_refl eq_refl eq_refl)).
    reflexivity.
  - apply (proj2 (raw_file_unreadable_file Demo.K Demo.production
             Demo.untrusted_get 4 "gone.png" Demo.db
             (Attachment.Build "Gone" None (Some 12%Z)) 12
             (Demo.revision_of 4 Demo.vanished) OSError
             eq_refl eq_refl eq_refl eq_refl eq_refl)).
    + reflexivity.
    + simpl. intros e' He'. by injection He' as <-.
Defined.

(** ** mindtouch_file_redirect *)

(** A lookup that two rows satisfy is ambiguous. *)
Lemma get_several {A} (table : gmap Z A) (lookup : Z * A → Prop)
    `{!∀ obj, Decision (lookup obj)} pk1 row1 pk2 row2 :
  pk1 ≠ pk2 →
  table !! pk1 = Some row1 → lookup (pk1, row1) →
  table !! pk2 = Some row2 → lookup (pk2, row2) →
  get table lookup = Raise MultipleObjectsReturned.
Proof.
  intros Hne Hrow1 Hl1 Hrow2 Hl2. unfold get.
  assert (Hin1 : (pk1, row1) ∈ map_to_list (filter lookup table))
    by by apply elem_of_map_to_list, map_lookup_filter_Some.
  assert (Hin2 : (pk2, row2) ∈ map_to_list (filter lookup table))
    by by apply elem_of_map_to_list, map_lookup_filter_Some.
  destruct (map_to_list (filter lookup table)) as [|obj [|obj' rows]].
  - by apply elem_of_nil in Hin1.
  - apply list_elem_of_singleton in Hin1, Hin2. congruence.
  - done.
Qed.

(** X8: when two attachments carry the legacy identifier,
    [mindtouch_file_redirect] neither redirects nor answers not-found: the
    lookup raises [MultipleObjectsReturned], which surfaces as a 500, and
    the database is left as it was. *)
Theorem mindtouch_file_redirect_ambiguous K request file_id filename db
    pk1 att1 pk2 att2 :
  pk1 ≠ pk2 →
  attachments db !! pk1 = Some att1 →
  Attachment.mindtouch_attachment_id att1 = Some file_id →
  attachments db !! pk2 = Some att2 →
  Attachment.mindtouch_attachment_id att2 = Some file_id →
  mindtouch_file_redirect K request file_id filename db
    = (Raise MultipleObjectsReturned, db) ∧
  surfaced_status
    (mindtouch_file_redirect K request file_id filename db).1 = 500%Z.
Proof.
  intros Hne Hrow1 Hid1 Hrow2 Hid2.
  assert (Hview : mindtouch_file_redirect K request file_id filename db
                  = (Raise MultipleObjectsReturned, db)).
  { rewrite mindtouch_file_redirect_unfold. unfold get_object_or_404.
    by rewrite (get_several _ _ pk1 att1 pk2 att2). }
  by rewrite Hview.
Qed.

Lemma mindtouch_file_redirect_ambiguous_witness :
  mindtouch_file_redirect Demo.K Demo.trusted_get 7 "logo.png" Legacy.db
    = (Raise MultipleObjectsReturned, Legacy.db) ∧
  surfaced_status
    (mindtouch_file_redirect Demo.K Demo.trusted_get 7 "logo.png" Legacy.db).1
    = 500%Z.
Proof.
  apply (mindtouch_file_redirect_ambiguous Demo.K Demo.trusted_get 7
           "logo.png" Legacy.db
           1 (Attachment.Build "Logo" (Some 7%Z) (Some 10%Z))
           2 (Attachment.Build "Logo (copy)" (Some 7%Z) (Some 10%Z))).
  - discriminate.
  - reflexivity.
  - reflexivity.
  - reflexivity.
  - reflexivity.
Defined.

(** ** edit_attachment *)

(** X9: when no document has the locale and slug of the path,
    [edit_attachment] raises [Http404] and leaves the database as it was,
    whatever the method, the user's permission and the form. *)
Theorem edit_attachment_document_not_found K request document_slug
    document_locale db :
  (∀ pk row, documents db !! pk = Some row →
     ¬ (Document.locale row = document_locale ∧
        Document.slug row = document_slug)) →
  edit_attachment K request document_slug document_locale db
    = (Raise Http404, db) ∧
  surfaced_status
    (edit_attachment K request document_slug document_locale db).1 = 404%Z.
Proof.
  intros Hnone.
  assert (Hview : edit_attachment K request document_slug document_locale db
                  = (Raise Http404, db)).
  { unfold edit_attachment, mbind, Eff_bind, query, lift.
    assert (H404 : get_object_or_404 (documents db) (λ obj,
                     Document.locale obj.2 = document_locale ∧
                     Document.slug obj.2 = document_slug) = Raise Http404)
      by by apply get_object_or_404_Http404.
    by rewrite H404. }
  by rewrite Hview.
Qed.

Lemma edit_attachment_document_not_found_witness :
  edit_attachment Demo.K (Demo.upload Demo.editor) "Web/HTML" "en-US" Demo.db
    = (Raise Http404, Demo.db) ∧
  surfaced_status
    (edit_attachment Demo.K (Demo.upload Demo.editor) "Web/HTML" "en-US"
       Demo.db).1 = 404%Z.
Proof.
  apply (edit_attachment_document_not_found Demo.K (Demo.upload Demo.editor)
           "Web/HTML" "en-US" Demo.db).
  intros pk row Hrow [_ Hslug]. each_row Hrow.
Defined.

(** What a call of the view does to the database: nothing, or the three
    inserts of a valid upload. *)
Lemma edit_attachment_effect K request document_slug document_locale db :
  let db' := (edit_attachment K request document_slug document_locale db).2 in
  db' = db ∨
  ∃ document apk rpk arow rrow,
    method request = "POST" ∧
    allow_add_attachment_by K (user request) = true ∧
    is_valid K {| data := POST request; files := FILES request |} = true ∧
    documents db !! document.1 = Some document.2 ∧
    Document.locale document.2 = document_locale ∧
    Document.slug document.2 = document_slug ∧
    attachments db !! apk = None ∧
    revisions db !! rpk = None ∧
    Attachment.current_revision arow = None ∧
    AttachmentRevision.attachment rrow = Some apk ∧
    db' =
      {| attachments := <[apk := arow]> (attachments db);
         revisions := <[rpk := rrow]> (revisions db);
         documents := documents db;
         document_attachments := document_attachments db ++
           [DocumentAttachment.Build apk document.1 (user request) rpk];
         journal := journal db ++
           [InsertAttachment apk arow;
            InsertRevision rpk rrow;
            InsertDocumentAttachment
              (DocumentAttachment.Build apk document.1 (user request) rpk)] |}.
Proof.
  intros db'. subst db'.
  unfold edit_attachment, mbind, Eff_bind, query, lift.
  destruct (get_object_or_404 _ _) as [document|e] eqn:Hget; simpl; [|by left].
  apply get_object_or_404_Return in Hget as [Hrow [Hlocale Hslug]].
  case_decide as Hmethod; [by left|].
  destruct (allow_add_attachment_by K (user request)) eqn:Hallow; simpl;
    [|by left].
  destruct (is_valid K _) eqn:Hvalid; [|by left].
  right.
  set (unsaved := form_save K {| data := POST request; files := FILES request |}).
  exists document, (fresh (dom (attachments db))), (fresh (dom (revisions db))),
    (Attachment.Build (AttachmentRevision.title unsaved) None None),
    (AttachmentRevision.Build (Some (fresh (dom (attachments db))))
       (AttachmentRevision.file unsaved)
       (AttachmentRevision.mime_type unsaved)
       (AttachmentRevision.title unsaved)
       (AttachmentRevision.created unsaved)
       (Some (user request))).
  repeat split; try done.
  - apply not_elem_of_dom, is_fresh.
  - apply not_elem_of_dom, is_fresh.
  - unfold attach, save, Attachment_objects_create. simpl.
    by rewrite <- !app_assoc.
Qed.

(** X10: [edit_attachment] writes to the database only for a POST by a
    user with upload permission, with a valid form, on a document that
    exists: in every other case the database is left as it was. *)
Theorem edit_attachment_writes_only_on_valid_upload K request document_slug
    document_locale db :
  (edit_attachment K request document_slug document_locale db).2 ≠ db →
  method request = "POST" ∧
  allow_add_attachment_by K (user request) = true ∧
  is_valid K {| data := POST request; files := FILES request |} = true ∧
  ∃ pk document,
    documents db !! pk = Some document ∧
    Document.locale document = document_locale ∧
    Document.slug document = document_slug.
Proof.
  intros Hchanged.
  destruct (edit_attachment_effect K request document_slug document_locale db)
    as [Hsame|([pk document] & apk & rpk & arow & rrow & ? & ? & ? & ? & ? & ?
                & _)];
    [done|].
  repeat split; try done. by exists pk, document.
Qed.

Lemma edit_attachment_writes_only_on_valid_upload_witness :
  method (Demo.upload Demo.editor) = "POST" ∧
  allow_add_attachment_by Demo.K (user (Demo.upload Demo.editor)) = true ∧
  is_valid Demo.K
    {| data := POST (Demo.upload Demo.editor);
       files := FILES (Demo.upload Demo.editor) |} = true ∧
  ∃ pk document,
    documents Demo.db !! pk = Some document ∧
    Document.locale document = "en-US" ∧
    Document.slug document = "Web/CSS".
Proof.
  apply (edit_attachment_writes_only_on_valid_upload Demo.K
           (Demo.upload Demo.editor) "Web/CSS" "en-US" Demo.db).
  intros Hsame. apply (f_equal journal) in Hsame.
  vm_compute in Hsame. discriminate Hsame.
Defined.

(** X11: [edit_attachment] only adds: every attachment and revision row
    that was in the database is still there unchanged, the documents are
    the same, and the rows of the document-attachment relation and the
    journal of writes are extended at the end. *)
Theorem edit_attachment_only_adds K request document_slug document_locale db :
  let db' := (edit_attachment K request document_slug document_locale db).2 in
  attachments db ⊆ attachments db' ∧
  revisions db ⊆ revisions db' ∧
  documents db' = documents db ∧
  document_attachments db `prefix_of` document_attachments db' ∧
  journal db `prefix_of` journal db'.
Proof.
  intros db'.
  destruct (edit_attachment_effect K request document_slug document_locale db)
    as [Hsame|(document & apk & rpk & arow & rrow & _ & _ & _ & _ & _ & _
               & Hapk & Hrpk & _ & _ & Hdb')];
    fold db' in Hsame || fold db' in Hdb'.
  - by rewrite Hsame.
  - rewrite Hdb'. simpl. repeat split.
    + by apply insert_subseteq.
    + by apply insert_subseteq.
    + by eexists.
    + by eexists.
Qed.

(** X12: [edit_attachment] keeps referential integrity: if every foreign
    key of the database points to a row before the call, the same holds
    after it, because the attachment is created before the revision that
    points to it is saved, and both before the row that links them to the
    document. *)
Theorem edit_attachment_keeps_consistency K request document_slug
    document_locale db :
  consistent db →
  consistent (edit_attachment K request document_slug document_locale db).2.
Proof.
  intros [Hcur Hatt Hlink].
  destruct (edit_attachment_effect K request document_slug document_locale db)
    as [Hsame|(document & apk & rpk & arow & rrow & _ & _ & _ & Hdoc & _ & _
               & Hapk & Hrpk & Harow & Hrrow & Hdb')];
    simpl in *.
  - by rewrite Hsame.
  - rewrite Hdb'. split; simpl.
    + intros pk att rpk' Hrow Hc. apply lookup_insert_is_Some'.
      destruct (decide (apk = pk)) as [->|Hne].
      * rewrite lookup_insert_eq in Hrow. by simplify_eq.
      * rewrite lookup_insert_ne in Hrow by done. right. by eapply Hcur.
    + intros rpk' rev pk Hrow Ha. apply lookup_insert_is_Some'.
      destruct (decide (rpk = rpk')) as [->|Hne].
      * rewrite lookup_insert_eq in Hrow. simplify_eq. by left.
      * rewrite lookup_insert_ne in Hrow by done. right. by eapply Hatt.
    + intros link Hin. apply elem_of_app in Hin as [Hold|Hnew].
      * destruct (Hlink link Hold) as (? & ? & ?).
        rewrite !lookup_insert_is_Some'. auto.
      * apply list_elem_of_singleton in Hnew as ->. simpl.
        rewrite !lookup_insert_is_Some', Hdoc. auto.
Qed.

Lemma edit_attachment_keeps_consistency_witness :
  consistent
    (edit_attachment Demo.K (Demo.upload Demo.editor) "Web/CSS" "en-US"
       Demo.db).2.
Proof.
  apply (edit_attachment_keeps_consistency Demo.K (Demo.upload Demo.editor)
           "Web/CSS" "en-US" Demo.db).
  split.
  - intros pk att rpk Hrow Hc. each_row Hrow; simpl in *; simplify_eq;
      by eexists.
  - intros rpk rev pk Hrow Ha. each_row Hrow; simpl in *; simplify_eq;
      by eexists.
  - intros link Hin. by apply elem_of_nil in Hin.
Defined.

Lemma edit_attachment_extends K request document_slug document_locale db :
  attachments db
    ⊆ attachments (edit_attachment K request document_slug document_locale db).2 ∧
  revisions db
    ⊆ revisions (edit_attachment K request document_slug document_locale db).2.
Proof.
  destruct (edit_attachment_effect K request document_slug document_locale db)
    as [Hsame|(document & apk & rpk & arow & rrow & _ & _ & _ & _ & _ & _
               & Hapk & Hrpk & _ & _ & Hdb')];
    simpl in *.
  - by rewrite Hsame.
  - rewrite Hdb'. simpl. split; by apply insert_subseteq.
Qed.

(** X13: a call of [edit_attachment], whatever it does, does not disturb
    the serving of an attachment that already had a current revision:
    afterwards an untrusted request for it gets the same outcome as
    before, and a trusted one still gets the permanent redirect to its
    [get_file_url]. *)
Theorem edit_attachment_keeps_serving K settings upload_request document_slug
    document_locale request attachment_id filename db att rpk rev :
  attachments db !! attachment_id = Some att →
  Attachment.current_revision att = Some rpk →
  revisions db !! rpk = Some rev →
  let db' :=
    (edit_attachment K upload_request document_slug document_locale db).2 in
  raw_file K settings request attachment_id filename db' =
  if is_untrusted K request
  then ((raw_file K settings request attachment_id filename db).1, db')
  else (Return (redirect (get_file_url K db' (attachment_id, att)) true), db').
Proof.
  intros Hatt Hcur Hrev db'.
  destruct (edit_attachment_extends K upload_request document_slug
              document_locale db) as [Hattachments Hrevisions].
  fold db' in Hattachments, Hrevisions.
  rewrite (raw_file_found K settings request attachment_id filename db'
             att rpk rev);
    [|by eapply lookup_weaken|done|by eapply lookup_weaken].
  rewrite (raw_file_found K settings _ _ _ _ _ _ _ Hatt Hcur Hrev).
  by destruct (is_untrusted K request).
Qed.

Lemma edit_attachment_keeps_serving_witness :
  raw_file Demo.K Demo.settings Demo.untrusted_get 1 "logo.png"
    (edit_attachment Demo.K (Demo.upload Demo.editor) "Web/CSS" "en-US"
       Demo.db).2
  = ((raw_file Demo.K Demo.settings Demo.untrusted_get 1 "logo.png"
        Demo.db).1,
     (edit_attachment Demo.K (Demo.upload Demo.editor) "Web/CSS" "en-US"
        Demo.db).2).
Proof.
  apply (edit_attachment_keeps_serving Demo.K Demo.settings
           (Demo.upload Demo.editor) "Web/CSS" "en-US" Demo.untrusted_get
           1 "logo.png" Demo.db
           (Attachment.Build "Logo" (Some 7%Z) (Some 10%Z)) 10
           (Demo.revision_of 1 Demo.logo));
    reflexivity.
Defined.

(** ** guess_extension *)

(** X14: for the two overridden MIME types [guess_extension] returns the
    override, whatever the [mimetypes] table says; for every other type it
    returns what [mimetypes] guesses; so it has no answer exactly when the
    type is not overridden and [mimetypes] has none. *)
Theorem guess_extension_override (mimetypes_guess_extension : string → option string)
    (_type : string) :
  (_type = "image/jpeg" →
   guess_extension mimetypes_guess_extension _type = Some ".jpeg, .jpg, .jpe") ∧
  (_type = "image/vnd.adobe.photoshop" →
   guess_extension mimetypes_guess_extension _type = Some ".psd") ∧
  (_type ≠ "image/jpeg" → _type ≠ "image/vnd.adobe.photoshop" →
   guess_extension mimetypes_guess_extension _type
     = mimetypes_guess_extension _type) ∧
  (guess_extension mimetypes_guess_extension _type = None ↔
   _type ≠ "image/jpeg" ∧ _type ≠ "image/vnd.adobe.photoshop" ∧
   mimetypes_guess_extension _type = None).
Proof.
  assert (Hother : _type ≠ "image/jpeg" →
                   _type ≠ "image/vnd.adobe.photoshop" →
                   OVERRIDE_MIMETYPES !! _type = None).
  { intros Hjpeg Hpsd. unfold OVERRIDE_MIMETYPES.
    by rewrite lookup_insert_ne, lookup_singleton_ne. }
  split; [by intros ->|]. split; [by intros ->|].
  split; [intros Hjpeg Hpsd; unfold guess_extension; by rewrite Hother|].
  destruct (decide (_type = "image/jpeg")) as [->|Hjpeg];
    [split; [done|by intros [? _]]|].
  destruct (decide (_type = "image/vnd.adobe.photoshop")) as [->|Hpsd];
    [split; [done|by intros (_ & ? & _)]|].
  unfold guess_extension. rewrite Hother by done.
  split; [by intros Hguess|by intros (_ & _ & Hguess)].
Qed.

Lemma guess_extension_override_witness :
  guess_extension (λ _, Some ".jpg") "image/jpeg" = Some ".jpeg, .jpg, .jpe" ∧
  guess_extension (λ _, Some ".bin") "image/vnd.adobe.photoshop"
    = Some ".psd" ∧
  guess_extension (λ _, Some ".png") "image/png" = Some ".png".
Proof.
  split; [|split].
  - apply (proj1 (guess_extension_override (λ _, Some ".jpg") "image/jpeg")).
    reflexivity.
  - apply (proj1 (proj2 (guess_extension_override (λ _, Some ".bin")
                           "image/vnd.adobe.photoshop"))).
    reflexivity.
  - apply (proj1 (proj2 (proj2 (guess_extension_override (λ _, Some ".png")
                                  "image/png"))));
      discriminate.
Defined.

(** ** All the ways edit_attachment can end *)


